(** * The insert mutation field of postgraphql

    A shallow embedding of [src/graphql/mutation/createInsertMutationField.js]
    and the properties its specification states about it.

    JavaScript values are a first-order datatype, objects that the code
    mutates live in a store and are passed around by reference, and a
    resolver is a function into an error monad: a thrown exception or a
    rejected promise is [Throw], a returned value or a fulfilled promise
    is [Ok]. *)

From Stdlib Require Import String Ascii List Bool Arith Lia DecimalString.
From Stdlib Require Import Floats.SpecFloat.
From stdpp Require Import base option gmap strings list fin_maps.

Set Warnings "-register-all".
Local Open Scope string_scope.

(** ** JavaScript values *)

(** A number is an IEEE double: [spec_float] has the two zeros, the
    infinities, NaN and the finite values. *)
Inductive value : Type :=
| VUndefined
| VNull
| VBool (b : bool)
| VNumber (x : spec_float)
| VString (s : string)
| VArray (xs : list value)
| VObject (o : list (string * value))
| VBuiltin (name : string).         (* a function or object of the runtime *)

(** ToBoolean: [undefined], [null], [false], [+0], [-0], [NaN] and the
    empty string are falsy, everything else (every array, every object and
    every function too) is truthy. *)
Definition truthy (v : value) : bool :=
  match v with
  | VUndefined | VNull => false
  | VBool b => b
  | VNumber (S754_zero _) | VNumber S754_nan => false
  | VNumber _ => true
  | VString s => negb (String.eqb s EmptyString)
  | VArray _ | VObject _ | VBuiltin _ => true
  end.

(** Number literals used in the examples. *)
Definition num (n : positive) : value := VNumber (S754_finite false n 0).

(** ** Exceptions and the error monad *)

Inductive error : Type :=
| TypeError (msg : string)          (* raised by the JavaScript runtime *)
| DatabaseError (e : value)         (* whatever the database client rejects with *)
| DanglingReference.                (* a reference outside the store: no JS counterpart *)

Inductive result (A : Type) : Type :=
| Ok (a : A)
| Throw (e : error).
Arguments Ok {A} a.
Arguments Throw {A} e.

#[global] Instance result_ret : MRet result := @Ok.
#[global] Instance result_bind : MBind result := λ A B f m,
  match m with
  | Ok a => f a
  | Throw e => Throw e
  end.
#[global] Instance result_fmap : FMap result := λ A B f m,
  match m with
  | Ok a => Ok (f a)
  | Throw e => Throw e
  end.

(** ** GraphQL types

    graphql-js refuses to wrap a non-null type in [GraphQLNonNull], so a
    type is a nullable type or one non-null wrapper around a nullable
    type. *)
Inductive NullableType : Type :=
| Named (n : string)
| GraphQLList (ofType : GraphQLType)
with GraphQLType : Type :=
| Nullable (ty : NullableType)
| GraphQLNonNull (ofType : NullableType).

Definition getNullableType (ty : GraphQLType) : GraphQLType :=
  match ty with
  | GraphQLNonNull ofType => Nullable ofType
  | Nullable _ => ty
  end.

(** lodash's [identity] and [constant]. *)
Definition identity {A} (x : A) : A := x.
Definition constant {A B} (x : A) : B → A := λ _, x.

Definition isNullable (ty : GraphQLType) : bool :=
  match ty with
  | Nullable _ => true
  | GraphQLNonNull _ => false
  end.

(** ** Table and column metadata (the catalog, consumed read-only) *)

Record Schema : Type := { schemaName : string }.

Module Column.
Record t : Type := {
  name : string;                  (* the SQL name, [column.name] *)
  getFieldName : string;          (* the API-facing name *)
  hasDefault : bool;
  description : option string;
}.
End Column.

Module Table.
Record t : Type := {
  schema : Schema;
  getIdentifier : string;         (* schema-qualified, already escaped *)
  getTypeName : string;
  getMarkdownTypeName : string;
  getFieldName : string;
  getColumns : list Column.t;
  getPrimaryKeys : list Column.t;
}.
End Table.

(** ** Objects and the store

    A row handed over by the database client is an object with string-keyed
    properties; the only symbol-keyed property the code touches is
    [$$rowTable]. *)
Record JSObject : Type := {
  props : gmap string value;
  rowTable : option Table.t;        (* the [$$rowTable] property, if set *)
}.

Abbreviation loc := positive.
Abbreviation store := (gmap positive JSObject).

(** What a plain object inherits from [Object.prototype]: the function
    [Object] under [constructor], the prototype's methods under their names
    and the prototype itself under [__proto__]. *)
Definition objectPrototype (k : string) : option value :=
  if String.eqb k "constructor" then Some (VBuiltin "Object")
  else if String.eqb k "__proto__" then Some (VBuiltin "Object.prototype")
  else if bool_decide
            (k ∈ ["toString"; "toLocaleString"; "valueOf"; "hasOwnProperty";
                  "isPrototypeOf"; "propertyIsEnumerable"; "__defineGetter__";
                  "__defineSetter__"; "__lookupGetter__"; "__lookupSetter__"])
  then Some (VBuiltin ("Object.prototype." +:+ k))
  else None.

(** [o[k]] on a plain object (a row, an input): its own property [k] if it
    has one, else what it inherits from [Object.prototype], else
    [undefined]. *)
Definition get (o : gmap string value) (k : string) : value :=
  match o !! k with
  | Some v => v
  | None => default VUndefined (objectPrototype k)
  end.

(** [output[k]] where [output] is [null] or a reference to a row. Reading a
    property of [null] throws a [TypeError]. *)
Definition getProp (σ : store) (output : option loc) (k : string) : result value :=
  match output with
  | None => Throw (TypeError "Cannot read property of null")
  | Some r =>
      match σ !! r with
      | Some o => Ok (get (props o) k)
      | None => Throw DanglingReference
      end
  end.

(** ** The payload's edge field: [resolveNewEdge] *)

(** What [resolveInsert] resolves to, and so the source value of the
    payload's fields. *)
Record InsertOutcome : Type := {
  output : option loc;              (* [null] or the inserted row *)
  clientMutationId : value;
}.

(** The edge field's arguments. [orderBy] is a value of the table's
    ordering enum, a name, or [undefined] when the argument is left out. *)
Record EdgeArgs : Type := { orderBy : option string }.

Record Edge : Type := {
  cursor : value;
  node : option loc;
}.

Definition resolveNewEdge (table : Table.t) (σ : store)
    (source : InsertOutcome) (args : EdgeArgs) : result Edge :=
  let output := output source in
  let fromPrimaryKeys :=
    let primaryKeys := Table.getPrimaryKeys table in
    VArray <$> mapM (λ column, getProp σ output (Column.name column)) primaryKeys in
  cursor ←
    match orderBy args with
    | Some k =>
        (* [if (orderBy)]: a string is truthy unless it is empty *)
        if truthy (VString k) then getProp σ output k else fromPrimaryKeys
    | None => fromPrimaryKeys
    end;
  mret {| cursor := cursor; node := output |}.

(** ** The SQL statement builder *)

(** Decimal numerals and the double quote character. *)
Definition decimal (n : nat) : string := NilZero.string_of_uint (Nat.to_uint n).
Definition dquote : string := String (ascii_of_nat 34) EmptyString.

(** [xs.join(sep)] on an array of strings. *)
Definition join (sep : string) (xs : list string) : string := String.concat sep xs.

(** Modelled from the spec: [SQLBuilder.js] is not among the sources. The
    builder accumulates ordered fragments of SQL text, each with the ordered
    values it binds; [add] appends one fragment and returns the builder.
    On finalisation the text is the fragments in order, separated by single
    spaces, with the placeholders [$] of a fragment (one per value it binds)
    numbered [$n] by overall parameter position, and the values are the
    fragments' values flattened in order. *)
Module SQLBuilder.
Definition t : Type := list (string * list value).

Definition new : t := [].

Definition add (text : string) (values : list value) (builder : t) : t :=
  (builder ++ [(text, values)])%list.

(** Number the first [k] placeholders of [s], starting at [n]. *)
Fixpoint number (k n : nat) (s : string) : string :=
  match s with
  | EmptyString => EmptyString
  | String c s' =>
      match k with
      | S k' =>
          if Ascii.eqb c "$"%char
          then "$" +:+ decimal n +:+ number k' (S n) s'
          else String c (number k n s')
      | O => s
      end
  end.

Fixpoint render (n : nat) (builder : t) : list string :=
  match builder with
  | [] => []
  | (text, values) :: rest =>
      number (length values) n text :: render (n + length values) rest
  end.

Definition text (builder : t) : string := join " " (render 1 builder).

Definition values (builder : t) : list value := concat (map snd builder).
End SQLBuilder.

(** ** The database client *)

(** What [client.queryAsync] fulfils with: the returned rows, each a
    reference to a row object. *)
Record QueryResult : Type := { rows : list loc }.

(** The client takes the statement and makes one round trip. It may
    allocate the row objects it returns, so it transforms the store; a
    rejection is a [Throw]. *)
Record Client : Type := {
  queryAsync : SQLBuilder.t → store → result (QueryResult * store);
}.

(** ** The mutation's resolver: [resolveInsert] *)

Record Args : Type := { input : gmap string value }.

(** The GraphQL context: the database client and whatever else the server
    put there. *)
Record Context : Type := {
  client : Client;
  rest : gmap string value;
}.

(** [row[$$rowTable] = table] *)
Definition setRowTable (table : Table.t) (row : JSObject) : JSObject :=
  {| props := props row; rowTable := Some table |}.

Definition valueEntries (columns : list Column.t) (input : gmap string value)
    : list (Column.t * value) :=
  List.filter (λ '(_, value), truthy value)
    (map (λ column, (column, get input (Column.getFieldName column))) columns).

Definition insertStatement (table : Table.t)
    (valueEntries : list (Column.t * value)) : SQLBuilder.t :=
  let b := SQLBuilder.new in
  let b := SQLBuilder.add ("insert into " +:+ Table.getIdentifier table) [] b in
  let b := SQLBuilder.add
    ("(" +:+ join ", " (map (λ '(column, _), dquote +:+ Column.name column +:+ dquote)
                            valueEntries) +:+ ")") [] b in
  let b := SQLBuilder.add "values" [] b in
  let b := SQLBuilder.add
    ("(" +:+ join ", " (map (constant "$") valueEntries) +:+ ")")
    (map (λ '(_, value), value) valueEntries) b in
  SQLBuilder.add "returning *" [] b.

Definition resolveInsert (table : Table.t)
    : value → Args → Context → store → result (InsertOutcome * store) :=
  let columns := Table.getColumns table in
  λ source args context σ,
    let input := input args in
    let clientMutationId := get input "clientMutationId" in
    let valueEntries := valueEntries columns input in
    '(res, σ1) ← queryAsync (client context) (insertStatement table valueEntries) σ;
    let '(output, σ2) :=
      match rows res with
      | row :: _ => (Some row, alter (setRowTable table) row σ1)
      | [] => (None, σ1)
      end in
    mret ({| output := output; clientMutationId := clientMutationId |}, σ2).

(** ** The generated types *)

(** [_.fromPairs]: a later pair replaces an earlier one with the same key. *)
Definition fromPairs {V} (pairs : list (string * V)) : gmap string V :=
  foldl (λ object pair, <[pair.1 := pair.2]> object) ∅ pairs.

Module InputField.
Record t : Type := {
  type : GraphQLType;
  description : option string;
}.
End InputField.

Module GraphQLInputObjectType.
Record t : Type := {
  name : string;
  description : string;
  fields : gmap string InputField.t;
}.
End GraphQLInputObjectType.

(** The resolver of a payload field. *)
Inductive Resolver : Type :=
| RowResolver (resolve : InsertOutcome → option loc)
| EdgeResolver (resolve : store → InsertOutcome → EdgeArgs → result Edge)
| SchemaResolver.                   (* of a field contributed by the schema *)

Module Field.
Record t : Type := {
  type : GraphQLType;
  args : gmap string GraphQLType;
  description : string;
  resolve : Resolver;
}.
End Field.

Module GraphQLObjectType.
Record t : Type := {
  name : string;
  description : string;
  interfaces : list GraphQLType;
  fields : gmap string Field.t;
}.
End GraphQLObjectType.

(** The mutation field itself: a payload type, one required [input]
    argument and the resolver. *)
Module MutationField.
Record t : Type := {
  type : GraphQLObjectType.t;
  description : string;
  args_input_ofType : GraphQLInputObjectType.t;   (* [new GraphQLNonNull(...)] *)
  resolve : value → Args → Context → store → result (InsertOutcome * store);
}.
End MutationField.

(** The modules this one imports and that are outside the sources: each is
    taken as given. *)
Class Collaborators : Type := {
  getColumnType : Column.t → GraphQLType;
  createTableType : Table.t → GraphQLType;
  createTableEdgeType : Table.t → GraphQLType;
  createTableOrderingEnum : Table.t → GraphQLType;
  getPayloadInterface : Schema → GraphQLType;
  getPayloadFields : Schema → gmap string Field.t;
  clientMutationIdDescription : option string;
}.

Section Types.
Context `{Collaborators}.

(** Modelled from the spec: [clientMutationId.js] is not among the sources.
    The input's [clientMutationId] field is optional and of string type. *)
Definition inputClientMutationId : InputField.t :=
  {| InputField.type := Nullable (Named "String");
     InputField.description := clientMutationIdDescription |}.

Definition inputField (column : Column.t) : InputField.t :=
  {| InputField.type :=
       (if Column.hasDefault column then getNullableType else identity)
         (getColumnType column);
     InputField.description := Column.description column |}.

Definition createInputType (table : Table.t) : GraphQLInputObjectType.t :=
  {| GraphQLInputObjectType.name := "Insert" +:+ Table.getTypeName table +:+ "Input";
     GraphQLInputObjectType.description :=
       "The " +:+ Table.getMarkdownTypeName table +:+ " to insert.";
     GraphQLInputObjectType.fields :=
       <["clientMutationId" := inputClientMutationId]>
         (fromPairs
            (map (λ column, (Column.getFieldName column, inputField column))
                 (Table.getColumns table))) |}.

Definition createPayloadType (table : Table.t) : GraphQLObjectType.t :=
  {| GraphQLObjectType.name := "Insert" +:+ Table.getTypeName table +:+ "Payload";
     GraphQLObjectType.description :=
       "Contains the " +:+ Table.getMarkdownTypeName table
         +:+ " node inserted by the mutation.";
     GraphQLObjectType.interfaces := [getPayloadInterface (Table.schema table)];
     GraphQLObjectType.fields :=
       (* a later key of the literal replaces an earlier one *)
       getPayloadFields (Table.schema table) ∪
       <[Table.getFieldName table +:+ "Edge" :=
           {| Field.type := createTableEdgeType table;
              Field.args := {["orderBy" := createTableOrderingEnum table]};
              Field.description :=
                "An edge to be inserted in a connection with help of the containing cursor.";
              Field.resolve := EdgeResolver (resolveNewEdge table) |}]>
       (<[Table.getFieldName table :=
           {| Field.type := createTableType table;
              Field.args := ∅;
              Field.description :=
                "The inserted " +:+ Table.getMarkdownTypeName table +:+ ".";
              Field.resolve := RowResolver output |}]> ∅) |}.

Definition createInsertMutationField (table : Table.t) : MutationField.t :=
  {| MutationField.type := createPayloadType table;
     MutationField.description :=
       "Creates a new node of the " +:+ Table.getMarkdownTypeName table +:+ " type.";
     MutationField.args_input_ofType := createInputType table;
     MutationField.resolve := resolveInsert table |}.

End Types.

(** ** The vocabulary of the properties *)

(** The placeholders [$n], ..., [$(n+m-1)]. *)
Definition placeholders (n m : nat) : list string :=
  map (λ i, "$" +:+ decimal i) (seq n m).

(** The columns whose submitted value passes the presence filter, in table
    column order. *)
Definition presentColumns (columns : list Column.t) (input : gmap string value)
    : list Column.t :=
  List.filter (λ column, truthy (get input (Column.getFieldName column))) columns.

(** A column's SQL name between two double quotes (the character of code
    34). *)
Definition quoted (column : Column.t) : string :=
  String "034"%char (Column.name column +:+ String "034"%char EmptyString).

(** The statement [resolveInsert] hands to the client. *)
Definition statementOf (table : Table.t) (input : gmap string value) : SQLBuilder.t :=
  insertStatement table (valueEntries (Table.getColumns table) input).

(** The result of every answered insert carries the input's
    [clientMutationId] as it is. *)
Definition echoesClientMutationId (table : Table.t) : Prop :=
  ∀ source args context (σ σ1 : store) res,
    queryAsync (client context) (statementOf table (input args)) σ = Ok (res, σ1) →
    ∃ out σ2,
      resolveInsert table source args context σ
      = Ok ({| output := out;
               clientMutationId := get (input args) "clientMutationId" |}, σ2).

(** The input's [clientMutationId] is not inspected: the statement sent to
    the database is the same whatever its value. *)
Definition clientMutationIdUninspected (table : Table.t) : Prop :=
  ∀ (input : gmap string value) v,
    statementOf table (<["clientMutationId" := v]> input) = statementOf table input.

(** The input type of a table has one field per column, under the column's
    field name, typed by the column's type (made nullable iff the column
    has a default) and described like the column; an optional
    [clientMutationId] field besides; and nothing else. *)
Definition oneFieldPerColumn `{Collaborators} (table : Table.t) : Prop :=
  let fields := GraphQLInputObjectType.fields (createInputType table) in
  (∀ column,
     column ∈ Table.getColumns table →
     fields !! Column.getFieldName column
     = Some {| InputField.type :=
                 if Column.hasDefault column
                 then getNullableType (getColumnType column)
                 else getColumnType column;
               InputField.description := Column.description column |})
  ∧ (∃ field,
       fields !! "clientMutationId" = Some field
       ∧ isNullable (InputField.type field) = true)
  ∧ size fields = S (length (Table.getColumns table))
  ∧ (∀ k, is_Some (fields !! k) →
       k = "clientMutationId"
       ∨ ∃ column, column ∈ Table.getColumns table ∧ k = Column.getFieldName column).

(** ** Sample data: the tables, rows and clients of the scenarios *)

Module Samples.

Definition mkColumn (name fieldName : string) (hasDefault : bool) : Column.t :=
  {| Column.name := name; Column.getFieldName := fieldName;
     Column.hasDefault := hasDefault; Column.description := None |}.

Definition public : Schema := {| schemaName := "public" |}.

(** [users (id serial primary key, name text, email text)] *)
Definition users : Table.t :=
  {| Table.schema := public;
     Table.getIdentifier := "users";
     Table.getTypeName := "User";
     Table.getMarkdownTypeName := "`User`";
     Table.getFieldName := "user";
     Table.getColumns :=
       [mkColumn "id" "id" true; mkColumn "name" "name" false;
        mkColumn "email" "email" false];
     Table.getPrimaryKeys := [mkColumn "id" "id" true] |}.

(** The same type name in a second build, after a column was added. *)
Definition usersWithPhone : Table.t :=
  {| Table.schema := public;
     Table.getIdentifier := "users";
     Table.getTypeName := "User";
     Table.getMarkdownTypeName := "`User`";
     Table.getFieldName := "user";
     Table.getColumns :=
       [mkColumn "id" "id" true; mkColumn "name" "name" false;
        mkColumn "email" "email" false; mkColumn "phone" "phone" false];
     Table.getPrimaryKeys := [mkColumn "id" "id" true] |}.

(** A table whose SQL names and API names differ. *)
Definition people : Table.t :=
  {| Table.schema := public;
     Table.getIdentifier := "people";
     Table.getTypeName := "Person";
     Table.getMarkdownTypeName := "`Person`";
     Table.getFieldName := "person";
     Table.getColumns :=
       [mkColumn "person_id" "personId" true; mkColumn "full_name" "fullName" false];
     Table.getPrimaryKeys := [mkColumn "person_id" "personId" true] |}.

(** A table with a column whose API name is [clientMutationId]. *)
Definition requests : Table.t :=
  {| Table.schema := public;
     Table.getIdentifier := "requests";
     Table.getTypeName := "Request";
     Table.getMarkdownTypeName := "`Request`";
     Table.getFieldName := "request";
     Table.getColumns := [mkColumn "client_mutation_id" "clientMutationId" false];
     Table.getPrimaryKeys := [] |}.

Definition mkRow (pairs : list (string * value)) : JSObject :=
  {| props := fromPairs pairs; rowTable := None |}.

(** [{id: 5, createdAt: "2020-01-01"}] *)
Definition row5 : JSObject :=
  mkRow [("id", num 5); ("createdAt", VString "2020-01-01")].

(** [{person_id: 7, full_name: "Ada"}] *)
Definition row7 : JSObject :=
  mkRow [("person_id", num 7); ("full_name", VString "Ada")].

(** The stores of the scenarios: one row, at reference 1. *)
Definition store5 : store := {[ 1%positive := row5 ]}.
Definition store7 : store := {[ 1%positive := row7 ]}.

(** A client whose insert returns one freshly allocated row. *)
Definition returning (row : JSObject) : Client :=
  {| queryAsync := λ _ σ,
       let r := fresh (dom σ) in Ok ({| rows := [r] |}, <[r := row]> σ) |}.

(** A client whose insert returns no row. *)
Definition returningNothing : Client :=
  {| queryAsync := λ _ σ, Ok ({| rows := [] |}, σ) |}.

(** A client whose statement fails. *)
Definition failing (e : value) : Client :=
  {| queryAsync := λ _ _, Throw (DatabaseError e) |}.

(** [{name: "Alice", email: "a@x.com", clientMutationId: "m1"}] *)
Definition alice : gmap string value :=
  fromPairs [("name", VString "Alice"); ("email", VString "a@x.com");
             ("clientMutationId", VString "m1")].


Definition context (c : Client) : Context := {| client := c; rest := ∅ |}.

#[local] Instance collaborators : Collaborators :=
  {| getColumnType := λ column,
       if String.eqb (Column.name column) "id"
       then GraphQLNonNull (Named "Int") else GraphQLNonNull (Named "String");
     createTableType := λ table, Nullable (Named (Table.getTypeName table));
     createTableEdgeType := λ table,
       Nullable (Named (Table.getTypeName table +:+ "Edge"));
     createTableOrderingEnum := λ table,
       Nullable (Named (Table.getTypeName table +:+ "Ordering"));
     getPayloadInterface := λ _, Nullable (Named "Payload");
     getPayloadFields := λ _, ∅;
     clientMutationIdDescription := None |}.

End Samples.

(** More sample data: a client that returns two rows, a schema that
    contributes payload fields, and a table with a shared field name. *)
Module MoreSamples.

(** A client whose insert returns two freshly allocated rows. *)
Definition returningTwo (row1 row2 : JSObject) : Client :=
  {| queryAsync := λ _ σ,
       let r1 := fresh (dom σ) in
       let σ1 := <[r1 := row1]> σ in
       let r2 := fresh (dom σ1) in
       Ok ({| rows := [r1; r2] |}, <[r2 := row2]> σ1) |}.

(** [{id: 6}]: a row without the [createdAt] property. *)
Definition row6 : JSObject := Samples.mkRow [("id", num 6)].

Definition store6 : store := {[ 1%positive := row6 ]}.

(** A row that already carries a [$$rowTable]. *)
Definition taggedRow : JSObject :=
  {| props := props Samples.row5; rowTable := Some Samples.people |}.

Definition schemaField (description : string) : Field.t :=
  {| Field.type := Nullable (Named "String");
     Field.args := ∅;
     Field.description := description;
     Field.resolve := SchemaResolver |}.

(** A schema whose payloads all carry [clientMutationId] and, by accident,
    a field called [user]. *)
#[local] Instance shadowing : Collaborators :=
  {| getColumnType := λ _, GraphQLNonNull (Named "String");
     createTableType := λ table, Nullable (Named (Table.getTypeName table));
     createTableEdgeType := λ table,
       Nullable (Named (Table.getTypeName table +:+ "Edge"));
     createTableOrderingEnum := λ table,
       Nullable (Named (Table.getTypeName table +:+ "Ordering"));
     getPayloadInterface := λ _, Nullable (Named "Payload");
     getPayloadFields := λ _,
       fromPairs [("clientMutationId", schemaField "The mutation id.");
                  ("user", schemaField "The current user.")];
     clientMutationIdDescription := None |}.

(** A row that already carries [users] as its [$$rowTable]. *)
Definition usersRow : JSObject :=
  {| props := props Samples.row5; rowTable := Some Samples.users |}.

(** Two columns, [a_b] and [aB], with the one field name [aB]. *)
Definition labels : Table.t :=
  {| Table.schema := Samples.public;
     Table.getIdentifier := "labels";
     Table.getTypeName := "Label";
     Table.getMarkdownTypeName := "`Label`";
     Table.getFieldName := "label";
     Table.getColumns :=
       [Samples.mkColumn "a_b" "aB" true; Samples.mkColumn "aB" "aB" false];
     Table.getPrimaryKeys := [] |}.


(** [{name: "Alice", email: "a@x.com", clientMutationId: "m1", role: "admin"}] *)
Definition aliceWithRole : gmap string value :=
  <["role" := VString "admin"]> Samples.alice.

End MoreSamples.

(** * Properties *)

(** ** The edge resolver *)

Section Edge.
Variables (table : Table.t) (σ : store).

(** Reading the primary key off a row that is in the store never throws. *)
Lemma mapM_getProp_row (r : loc) (o : JSObject) (columns : list Column.t) :
  σ !! r = Some o →
  mapM (λ column, getProp σ (Some r) (Column.name column)) columns
  = Ok (map (λ column, get (props o) (Column.name column)) columns).
Proof.
  intros Hr. induction columns as [|column columns IH]; [reflexivity|].
  simpl in *. rewrite Hr in *. simpl. rewrite IH. reflexivity.
Qed.

(** Reading it off [null] throws at the first column. *)
Lemma mapM_getProp_null (columns : list Column.t) :
  mapM (λ column, getProp σ None (Column.name column)) columns
  = match columns with
    | [] => Ok []
    | _ :: _ => Throw (TypeError "Cannot read property of null")
    end.
Proof. destruct columns; reflexivity. Qed.

Lemma resolveNewEdge_row_orderBy r o cmi k :
  σ !! r = Some o → k ≠ EmptyString →
  resolveNewEdge table σ {| output := Some r; clientMutationId := cmi |}
                 {| orderBy := Some k |}
  = Ok {| cursor := get (props o) k; node := Some r |}.
Proof.
  intros Hr Hk. unfold resolveNewEdge. cbn.
  destruct (String.eqb_spec k EmptyString) as [->|_]; [done|].
  cbn. rewrite Hr. reflexivity.
Qed.

Lemma resolveNewEdge_row_primaryKeys r o cmi :
  σ !! r = Some o →
  resolveNewEdge table σ {| output := Some r; clientMutationId := cmi |}
                 {| orderBy := None |}
  = Ok {| cursor := VArray (map (λ column, get (props o) (Column.name column))
                                (Table.getPrimaryKeys table));
          node := Some r |}.
Proof.
  intros Hr. unfold resolveNewEdge. cbn.
  rewrite (mapM_getProp_row r o _ Hr). reflexivity.
Qed.

(** The empty string is a falsy [orderBy]: the code takes the primary-key
    branch for it. *)
Lemma resolveNewEdge_empty_orderBy source :
  resolveNewEdge table σ source {| orderBy := Some EmptyString |}
  = resolveNewEdge table σ source {| orderBy := None |}.
Proof. reflexivity. Qed.

(** On a [null] output the resolver returns only when there is nothing to
    read: no selector and no primary key. *)
Lemma resolveNewEdge_null cmi orderBy :
  resolveNewEdge table σ {| output := None; clientMutationId := cmi |}
                 {| orderBy := orderBy |}
  = if truthy (from_option VString VUndefined orderBy)
       || negb (bool_decide (Table.getPrimaryKeys table = []))
    then Throw (TypeError "Cannot read property of null")
    else Ok {| cursor := VArray []; node := None |}.
Proof.
  unfold resolveNewEdge. cbn.
  destruct orderBy as [k|]; cbn.
  - destruct (String.eqb k EmptyString); cbn; [|reflexivity].
    rewrite mapM_getProp_null. destruct (Table.getPrimaryKeys table); reflexivity.
  - rewrite mapM_getProp_null. destruct (Table.getPrimaryKeys table); reflexivity.
Qed.

End Edge.

(** C1. The first half of the claim holds: an insert that returns no row
    resolves, without an error, to an outcome whose output is null. The
    second half does not: on that outcome the edge resolver reads a property
    of null and throws a TypeError, with a selector ([orderBy] = "id") as
    without one (the table [users] has a primary key). *)
Theorem C1_edge_of_null_output_throws :
  resolveInsert Samples.users VNull {| input := Samples.alice |}
                (Samples.context Samples.returningNothing) ∅
  = Ok ({| output := None; clientMutationId := VString "m1" |}, ∅)
  ∧ resolveNewEdge Samples.users ∅
      {| output := None; clientMutationId := VString "m1" |} {| orderBy := None |}
    = Throw (TypeError "Cannot read property of null")
  ∧ resolveNewEdge Samples.users ∅
      {| output := None; clientMutationId := VString "m1" |} {| orderBy := Some "id" |}
    = Throw (TypeError "Cannot read property of null").
Proof. repeat split; vm_compute; reflexivity. Qed.

(** C2. The cursor law. For a row [r] of the store with properties [o]: with
    a selector [k] (a name, so not the empty string) the cursor is [o[k]];
    without a selector it is the array of [o[pk.name]] for the primary-key
    columns [pk] in their declared order; the node is [r] both times. *)
Theorem C2_cursor_law (table : Table.t) (σ : store) (r : loc) (o : JSObject)
    (cmi : value) :
  σ !! r = Some o →
  (∀ k, k ≠ EmptyString →
     resolveNewEdge table σ {| output := Some r; clientMutationId := cmi |}
                    {| orderBy := Some k |}
     = Ok {| cursor := get (props o) k; node := Some r |})
  ∧ resolveNewEdge table σ {| output := Some r; clientMutationId := cmi |}
                   {| orderBy := None |}
    = Ok {| cursor := VArray (map (λ pk, get (props o) (Column.name pk))
                                  (Table.getPrimaryKeys table));
            node := Some r |}.
Proof.
  intros Hr. split.
  - intros k Hk. by apply resolveNewEdge_row_orderBy.
  - by apply resolveNewEdge_row_primaryKeys.
Qed.

(** Scenarios B and C: the row [{id: 5, createdAt: "2020-01-01"}] of
    [users], ordered by [createdAt] and by the primary key. *)
Lemma C2_cursor_law_witness :
  resolveNewEdge Samples.users Samples.store5
    {| output := Some 1%positive; clientMutationId := VNull |}
    {| orderBy := Some "createdAt" |}
  = Ok {| cursor := VString "2020-01-01"; node := Some 1%positive |}
  ∧ resolveNewEdge Samples.users Samples.store5
      {| output := Some 1%positive; clientMutationId := VNull |}
      {| orderBy := None |}
    = Ok {| cursor := VArray [num 5]; node := Some 1%positive |}.
Proof.
  destruct (C2_cursor_law Samples.users Samples.store5 1%positive Samples.row5 VNull eq_refl)
    as [Hk Hpk].
  split; [apply (Hk "createdAt"); discriminate | exact Hpk].
Defined.

(** C8. Without a selector the cursor reads the row under the SQL names
    [column.name] of the primary-key columns: it is the array of those
    values, and it is the same for any table whose primary-key columns have
    the same SQL names, whatever their API field names. With a selector [k]
    the cursor is the row's value under [k] itself, whatever the table. *)
Theorem C8_cursor_reads_sql_names (table : Table.t) (σ : store) (r : loc)
    (o : JSObject) (cmi : value) :
  σ !! r = Some o →
  cursor <$> resolveNewEdge table σ {| output := Some r; clientMutationId := cmi |}
                            {| orderBy := None |}
  = Ok (VArray (map (λ column, get (props o) (Column.name column))
                    (Table.getPrimaryKeys table)))
  ∧ (∀ table',
       map Column.name (Table.getPrimaryKeys table')
       = map Column.name (Table.getPrimaryKeys table) →
       resolveNewEdge table' σ {| output := Some r; clientMutationId := cmi |}
                      {| orderBy := None |}
       = resolveNewEdge table σ {| output := Some r; clientMutationId := cmi |}
                        {| orderBy := None |})
  ∧ (∀ table' k, k ≠ EmptyString →
       cursor <$> resolveNewEdge table' σ
                    {| output := Some r; clientMutationId := cmi |}
                    {| orderBy := Some k |}
       = Ok (get (props o) k)).
Proof.
  intros Hr. split; [|split].
  - by rewrite (resolveNewEdge_row_primaryKeys table σ r o cmi Hr).
  - intros table' Hnames.
    rewrite !(resolveNewEdge_row_primaryKeys _ σ r o cmi Hr).
    do 3 f_equal.
    rewrite <- !(map_map Column.name (get (props o))). by rewrite Hnames.
  - intros table' k Hk.
    by rewrite (resolveNewEdge_row_orderBy table' σ r o cmi k Hr Hk).
Qed.

(** The row [{person_id: 7, full_name: "Ada"}] of [people], whose key column
    is [person_id] in SQL and [personId] in the API: the cursor is [[7]],
    not the row's values under the field names, which are [[undefined]]. *)
Lemma C8_cursor_reads_sql_names_witness :
  cursor <$> resolveNewEdge Samples.people Samples.store7
               {| output := Some 1%positive; clientMutationId := VNull |}
               {| orderBy := None |}
  = Ok (VArray [num 7])
  ∧ map (λ column, get (props Samples.row7) (Column.getFieldName column))
        (Table.getPrimaryKeys Samples.people) = [VUndefined]
  ∧ cursor <$> resolveNewEdge Samples.people Samples.store7
                 {| output := Some 1%positive; clientMutationId := VNull |}
                 {| orderBy := Some "full_name" |}
    = Ok (VString "Ada").
Proof.
  destruct (C8_cursor_reads_sql_names Samples.people Samples.store7 1%positive
              Samples.row7 VNull eq_refl) as (Hpk & _ & Hk).
  split; [exact Hpk | split; [reflexivity |]].
  apply (Hk Samples.people "full_name"). discriminate.
Defined.

(** ** Strings *)

Lemma append_cons c s t : String c s +:+ t = String c (s +:+ t).
Proof. reflexivity. Qed.

Lemma append_assoc (s t u : string) : (s +:+ t) +:+ u = s +:+ t +:+ u.
Proof. induction s as [|c s IH]; [reflexivity|]. by rewrite !append_cons, IH. Qed.

(** [join] on an array with at least two elements. *)
Lemma join_cons2 sep x y xs :
  join sep (x :: y :: xs) = x +:+ sep +:+ join sep (y :: xs).
Proof. reflexivity. Qed.

(** ** The statement builder *)

Lemma number_0 n s : SQLBuilder.number 0 n s = s.
Proof. by destruct s. Qed.

Lemma number_placeholder k n s :
  SQLBuilder.number (S k) n ("$" +:+ s)
  = "$" +:+ decimal n +:+ SQLBuilder.number k (S n) s.
Proof. reflexivity. Qed.

Lemma number_separator k n s :
  SQLBuilder.number k n (", " +:+ s) = ", " +:+ SQLBuilder.number k n s.
Proof. destruct k; [by rewrite !number_0 | reflexivity]. Qed.

Lemma number_open k n s :
  SQLBuilder.number k n ("(" +:+ s) = "(" +:+ SQLBuilder.number k n s.
Proof. destruct k; [by rewrite !number_0 | reflexivity]. Qed.

(** Numbering a comma-separated run of [m] placeholders that bind [m]
    values. *)
Lemma number_join m : ∀ n tail,
  SQLBuilder.number m n (join ", " (repeat "$" m) +:+ tail)
  = join ", " (placeholders n m) +:+ tail.
Proof.
  induction m as [|m IH]; intros n tail.
  - by rewrite number_0.
  - destruct m as [|m].
    + change (SQLBuilder.number 1 n ("$" +:+ tail) = ("$" +:+ decimal n) +:+ tail).
      by rewrite number_placeholder, number_0, append_assoc.
    + change (repeat "$" (S (S m))) with ("$" :: "$" :: repeat "$" m)%list.
      change (placeholders n (S (S m)))
        with (("$" +:+ decimal n) :: placeholders (S n) (S m))%list.
      change (placeholders (S n) (S m))
        with (("$" +:+ decimal (S n)) :: placeholders (S (S n)) m)%list.
      rewrite !join_cons2, !append_assoc.
      rewrite number_placeholder, number_separator.
      do 3 f_equal.
      exact (IH (S n) tail).
Qed.

(** ** The statement of the insert *)

Lemma valueEntries_present columns input :
  valueEntries columns input
  = map (λ column, (column, get input (Column.getFieldName column)))
        (presentColumns columns input).
Proof.
  unfold valueEntries, presentColumns.
  induction columns as [|column columns IH]; [reflexivity|].
  cbn [map List.filter].
  destruct (truthy (get input (Column.getFieldName column))); cbn [map]; by rewrite IH.
Qed.

Lemma elem_of_presentColumns columns input column :
  In column (presentColumns columns input)
  ↔ In column columns ∧ truthy (get input (Column.getFieldName column)) = true.
Proof. unfold presentColumns. apply filter_In. Qed.

(** The calls of [add], as the source makes them. *)
Lemma insertStatement_fragments table input :
  statementOf table input
  = [ ("insert into " +:+ Table.getIdentifier table, []);
      ("(" +:+ join ", " (map quoted (presentColumns (Table.getColumns table) input))
           +:+ ")", []);
      ("values", []);
      ("(" +:+ join ", "
                 (repeat "$" (length (presentColumns (Table.getColumns table) input)))
           +:+ ")",
       map (λ column, get input (Column.getFieldName column))
           (presentColumns (Table.getColumns table) input));
      ("returning *", []) ].
Proof.
  unfold statementOf, insertStatement, SQLBuilder.add, SQLBuilder.new.
  rewrite valueEntries_present, !map_map. cbn [app].
  repeat f_equal.
  induction (presentColumns (Table.getColumns table) input) as [|c l IH];
    [reflexivity|]. cbn [map length repeat]. by rewrite IH.
Qed.


Lemma statement_text table input :
  SQLBuilder.text (statementOf table input)
  = "insert into " +:+ Table.getIdentifier table
    +:+ " (" +:+ join ", " (map quoted (presentColumns (Table.getColumns table) input))
    +:+ ") values ("
    +:+ join ", " (placeholders 1 (length (presentColumns (Table.getColumns table) input)))
    +:+ ") returning *".
Proof.
  rewrite insertStatement_fragments. unfold SQLBuilder.text.
  cbn [SQLBuilder.render length Nat.add]. rewrite !number_0.
  rewrite length_map, number_open, number_join.
  rewrite !join_cons2. cbn [join String.concat].
  by rewrite !append_assoc.
Qed.

(** ** The insert resolver *)

(** The resolver, case by case on what the client answers. *)
Lemma resolveInsert_unfold table source args context σ :
  resolveInsert table source args context σ
  = match queryAsync (client context) (statementOf table (input args)) σ with
    | Ok (res, σ1) =>
        Ok ({| output := head (rows res);
               clientMutationId := get (input args) "clientMutationId" |},
            match rows res with
            | row :: _ => alter (setRowTable table) row σ1
            | [] => σ1
            end)
    | Throw e => Throw e
    end.
Proof.
  unfold resolveInsert, statementOf. cbn.
  destruct (queryAsync _ _ _) as [[res σ1]|e]; [|reflexivity].
  cbn. by destruct (rows res).
Qed.

(** The statement does not depend on the input's [clientMutationId], unless
    a column goes by that field name. *)
Lemma statement_ignores_clientMutationId table input v :
  "clientMutationId" ∉ map Column.getFieldName (Table.getColumns table) →
  statementOf table (<["clientMutationId" := v]> input) = statementOf table input.
Proof.
  intros Hcmi. unfold statementOf, valueEntries. do 2 f_equal.
  apply map_ext_in. intros column Hcolumn. f_equal. unfold get.
  rewrite lookup_insert_ne; [done|]. intros Heq. apply Hcmi.
  rewrite Heq. by apply list_elem_of_In, in_map.
Qed.

(** An insert that returns no row resolves to a [null] output: no error. *)
Lemma resolveInsert_no_row table source args context σ σ1 :
  queryAsync (client context) (statementOf table (input args)) σ
  = Ok ({| rows := [] |}, σ1) →
  resolveInsert table source args context σ
  = Ok ({| output := None;
           clientMutationId := get (input args) "clientMutationId" |}, σ1).
Proof. intros Hq. by rewrite resolveInsert_unfold, Hq. Qed.





(** C6, as stated, fails on a table with a column whose field name is
    [clientMutationId]: for [requests] the value is tested by the presence
    filter and bound as a parameter, so the statement of
    [{clientMutationId: "m9"}] is not the statement of [{}]. *)
Lemma C6_counterexample_clientMutationId_column :
  ¬ (echoesClientMutationId Samples.requests
     ∧ clientMutationIdUninspected Samples.requests).
Proof.
  intros [_ Huninspected].
  specialize (Huninspected ∅ (VString "m9")). vm_compute in Huninspected.
  discriminate.
Qed.

(** C6, amended. Whatever the client returns (a row, no row), the
    resolver's result carries the value of the input's [clientMutationId] as
    it is; when the client fails the resolver fails with the same error and
    has no result. For a table none of whose columns goes by the field name
    [clientMutationId] the value is not inspected either: the statement does
    not depend on it, and changing it changes nothing of the resolver's run
    but the echoed value. *)
Theorem C6_clientMutationId_echoed (table : Table.t) :
  echoesClientMutationId table
  ∧ (∀ source args context (σ : store) e,
       queryAsync (client context) (statementOf table (input args)) σ = Throw e →
       resolveInsert table source args context σ = Throw e)
  ∧ ("clientMutationId" ∉ map Column.getFieldName (Table.getColumns table) →
     clientMutationIdUninspected table
     ∧ ∀ source (input : gmap string value) v context (σ : store),
         resolveInsert table source
                       {| input := <["clientMutationId" := v]> input |} context σ
         = (λ '(outcome, σ2),
              ({| output := output outcome; clientMutationId := v |}, σ2))
             <$> resolveInsert table source {| input := input |} context σ).
Proof.
  split; [|split].
  - intros source args context σ σ1 res Hq. rewrite resolveInsert_unfold, Hq. eauto.
  - intros source args context σ e Hq. by rewrite resolveInsert_unfold, Hq.
  - intros Hcmi.
    assert (Huninspected : clientMutationIdUninspected table)
      by (intros input v; by apply statement_ignores_clientMutationId).
    split; [exact Huninspected|].
    intros source submitted v context σ. rewrite !resolveInsert_unfold. cbn [input].
    rewrite (Huninspected submitted v). unfold get at 1. rewrite lookup_insert_eq.
    by destruct (queryAsync _ _ _) as [[res σ1]|e].
Qed.

Lemma C6_clientMutationId_echoed_witness :
  (∃ out σ2,
     resolveInsert Samples.users VNull {| input := Samples.alice |}
                   (Samples.context (Samples.returning Samples.row5)) ∅
     = Ok ({| output := out; clientMutationId := VString "m1" |}, σ2))
  ∧ (∃ out σ2,
       resolveInsert Samples.users VNull {| input := Samples.alice |}
                     (Samples.context Samples.returningNothing) ∅
       = Ok ({| output := out; clientMutationId := VString "m1" |}, σ2))
  ∧ resolveInsert Samples.users VNull {| input := Samples.alice |}
                  (Samples.context (Samples.failing VNull)) ∅
    = Throw (DatabaseError VNull)
  ∧ statementOf Samples.users (<["clientMutationId" := VNumber S754_nan]> Samples.alice)
    = statementOf Samples.users Samples.alice.
Proof.
  destruct (C6_clientMutationId_echoed Samples.users) as (Hecho & Hfail & Hplain).
  split; [|split; [|split]].
  - exact (Hecho VNull {| input := Samples.alice |}
                 (Samples.context (Samples.returning Samples.row5)) ∅ _ _ eq_refl).
  - exact (Hecho VNull {| input := Samples.alice |}
                 (Samples.context Samples.returningNothing) ∅ _ _ eq_refl).
  - exact (Hfail VNull {| input := Samples.alice |}
                 (Samples.context (Samples.failing VNull)) ∅ _ eq_refl).
  - apply Hplain. apply (bool_decide_unpack _). vm_compute. reflexivity.
Defined.

(** C9. When the client returns a row, the output is that row's reference;
    in the store the row keeps the properties the client gave it and has
    [$$rowTable] set to the resolver's table, and no other object of the
    store is touched. *)
Theorem C9_row_tagged_in_place (table : Table.t) (source : value) (args : Args)
    (context : Context) (σ σ1 : store) (res : QueryResult) (row : loc)
    (o : JSObject) :
  queryAsync (client context) (statementOf table (input args)) σ = Ok (res, σ1) →
  head (rows res) = Some row →
  σ1 !! row = Some o →
  ∃ σ2,
    resolveInsert table source args context σ
    = Ok ({| output := Some row;
             clientMutationId := get (input args) "clientMutationId" |}, σ2)
    ∧ σ2 !! row = Some {| props := props o; rowTable := Some table |}
    ∧ (∀ l, l ≠ row → σ2 !! l = σ1 !! l).
Proof.
  intros Hq Hrow Ho. rewrite resolveInsert_unfold, Hq, Hrow.
  destruct (rows res) as [|row' rows']; [done|]. injection Hrow as ->.
  eexists. split; [reflexivity|]. split.
  - by rewrite lookup_alter_eq, Ho.
  - intros l Hl. by rewrite lookup_alter_ne.
Qed.

Lemma C9_row_tagged_in_place_witness :
  ∃ σ2,
    resolveInsert Samples.users VNull {| input := Samples.alice |}
                  (Samples.context (Samples.returning Samples.row5)) ∅
    = Ok ({| output := Some (fresh (dom (∅ : store)));
             clientMutationId := VString "m1" |}, σ2)
    ∧ σ2 !! fresh (dom (∅ : store))
      = Some {| props := props Samples.row5; rowTable := Some Samples.users |}
    ∧ (∀ l, l ≠ fresh (dom (∅ : store)) → σ2 !! l = None).
Proof.
  destruct (C9_row_tagged_in_place Samples.users VNull {| input := Samples.alice |}
              (Samples.context (Samples.returning Samples.row5)) ∅
              _ _ (fresh (dom (∅ : store))) Samples.row5 eq_refl eq_refl
              (lookup_insert_eq _ _ _)) as (σ2 & Hres & Hrow & Hother).
  exists σ2. split; [exact Hres | split; [exact Hrow|]].
  intros l Hl. rewrite (Hother l Hl). by apply lookup_insert_None.
Defined.

(** C10. The result is a function of the input and of what the client
    answers. Two invocations on the same input whose clients answer with the
    same rows (or the same error) have the same {output, clientMutationId}
    (or fail alike), whatever their source values, their other context
    fields and their stores; with the same client and store the source value
    and the other context fields change nothing at all. *)
Theorem C10_result_depends_on_input_and_rows (table : Table.t)
    (source source' : value) (args : Args) (context context' : Context)
    (σ σ' : store) :
  (fst <$> queryAsync (client context) (statementOf table (input args)) σ
   = fst <$> queryAsync (client context') (statementOf table (input args)) σ' →
   fst <$> resolveInsert table source args context σ
   = fst <$> resolveInsert table source' args context' σ')
  ∧ (client context = client context' →
     resolveInsert table source args context σ
     = resolveInsert table source' args context' σ).
Proof.
  split.
  - intros Hq. rewrite !resolveInsert_unfold.
    destruct (queryAsync (client context) _ σ) as [[res σ1]|e],
             (queryAsync (client context') _ σ') as [[res' σ1']|e'];
      cbn in Hq |- *; congruence.
  - intros Hc. by rewrite !resolveInsert_unfold, Hc.
Qed.

Lemma C10_result_depends_on_input_and_rows_witness :
  fst <$> resolveInsert Samples.users VNull {| input := Samples.alice |}
            (Samples.context Samples.returningNothing) ∅
  = fst <$> resolveInsert Samples.users (VString "root") {| input := Samples.alice |}
              {| client := Samples.returningNothing;
                 rest := {[ "user" := VString "admin" ]} |} Samples.store5
  ∧ resolveInsert Samples.users VNull {| input := Samples.alice |}
      (Samples.context (Samples.returning Samples.row5)) ∅
    = resolveInsert Samples.users (VString "root") {| input := Samples.alice |}
        {| client := Samples.returning Samples.row5;
           rest := {[ "user" := VString "admin" ]} |} ∅.
Proof.
  split.
  - apply (proj1 (C10_result_depends_on_input_and_rows Samples.users VNull
                    (VString "root") {| input := Samples.alice |}
                    (Samples.context Samples.returningNothing)
                    {| client := Samples.returningNothing;
                       rest := {[ "user" := VString "admin" ]} |}
                    ∅ Samples.store5)).
    vm_compute. reflexivity.
  - apply (proj2 (C10_result_depends_on_input_and_rows Samples.users VNull
                    (VString "root") {| input := Samples.alice |}
                    (Samples.context (Samples.returning Samples.row5))
                    {| client := Samples.returning Samples.row5;
                       rest := {[ "user" := VString "admin" ]} |}
                    ∅ ∅)).
    reflexivity.
Defined.

(** ** The names and the fields of the generated types *)

(** C7. The names of the input and of the payload type are
    [Insert<T>Input] and [Insert<T>Payload] for the table's type name [T]:
    two builds over tables with the same type name give the same names,
    whatever else differs. *)
Theorem C7_type_names_deterministic (H H' : Collaborators) (table table' : Table.t) :
  GraphQLInputObjectType.name (@createInputType H table)
  = "Insert" +:+ Table.getTypeName table +:+ "Input"
  ∧ GraphQLObjectType.name (@createPayloadType H table)
    = "Insert" +:+ Table.getTypeName table +:+ "Payload"
  ∧ (Table.getTypeName table = Table.getTypeName table' →
     GraphQLInputObjectType.name (@createInputType H table)
     = GraphQLInputObjectType.name (@createInputType H' table')
     ∧ GraphQLObjectType.name (@createPayloadType H table)
       = GraphQLObjectType.name (@createPayloadType H' table')).
Proof.
  split; [reflexivity | split; [reflexivity|]].
  intros HT. cbn. by rewrite HT.
Qed.

Lemma C7_type_names_deterministic_witness :
  GraphQLInputObjectType.name (@createInputType Samples.collaborators Samples.users)
  = "InsertUserInput"
  ∧ GraphQLObjectType.name (@createPayloadType Samples.collaborators Samples.users)
    = "InsertUserPayload"
  ∧ GraphQLInputObjectType.name (@createInputType Samples.collaborators Samples.users)
    = GraphQLInputObjectType.name
        (@createInputType Samples.collaborators Samples.usersWithPhone)
  ∧ GraphQLObjectType.name (@createPayloadType Samples.collaborators Samples.users)
    = GraphQLObjectType.name
        (@createPayloadType Samples.collaborators Samples.usersWithPhone).
Proof.
  destruct (C7_type_names_deterministic Samples.collaborators Samples.collaborators
              Samples.users Samples.usersWithPhone) as (Hi & Hp & Hsame).
  split; [exact Hi | split; [exact Hp | exact (Hsame eq_refl)]].
Defined.

Lemma getNullableType_nullable ty : isNullable (getNullableType ty) = true.
Proof. by destruct ty. Qed.

Lemma fromPairs_snoc {V} (pairs : list (string * V)) k v :
  fromPairs (pairs ++ [(k, v)]) = <[k := v]> (fromPairs pairs).
Proof. unfold fromPairs. by rewrite foldl_app. Qed.

Lemma lookup_fromPairs_None {V} (pairs : list (string * V)) k :
  fromPairs pairs !! k = None ↔ k ∉ map fst pairs.
Proof.
  induction pairs as [|[k' v'] pairs IH] using rev_ind.
  - split; [intros _; apply not_elem_of_nil | intros _; apply lookup_empty].
  - rewrite fromPairs_snoc, lookup_insert_None, map_app, not_elem_of_app, IH.
    cbn. rewrite list_elem_of_singleton. split; intros [? ?]; split; congruence.
Qed.

Lemma lookup_fromPairs_Some {V} (pairs : list (string * V)) k v :
  NoDup (map fst pairs) → fromPairs pairs !! k = Some v ↔ (k, v) ∈ pairs.
Proof.
  induction pairs as [|[k' v'] pairs IH] using rev_ind; intros Hnd.
  - change (fromPairs []) with (∅ : gmap string V). rewrite lookup_empty.
    split; [done | by intros ?%elem_of_nil].
  - rewrite map_app in Hnd. apply NoDup_app in Hnd as (Hnd & Hfresh & _).
    rewrite fromPairs_snoc, lookup_insert_Some, elem_of_app, list_elem_of_singleton,
      (IH Hnd).
    split.
    + intros [[-> ->]|[_ Hin]]; [by right | by left].
    + intros [Hin|[= -> ->]]; [right | by left].
      split; [|done]. intros ->.
      apply (Hfresh k); [|by apply list_elem_of_singleton].
      apply list_elem_of_In, in_map_iff. exists (k, v).
      split; [done | by apply list_elem_of_In].
Qed.

Lemma size_fromPairs {V} (pairs : list (string * V)) :
  NoDup (map fst pairs) → size (fromPairs pairs) = length pairs.
Proof.
  induction pairs as [|[k' v'] pairs IH] using rev_ind; intros Hnd.
  - apply map_size_empty.
  - rewrite map_app in Hnd. apply NoDup_app in Hnd as (Hnd & Hfresh & _).
    rewrite fromPairs_snoc, map_size_insert_None, length_app, (IH Hnd); [cbn; lia|].
    apply lookup_fromPairs_None. intros Hin.
    by apply (Hfresh k' Hin), list_elem_of_singleton.
Qed.

(** Every pair of the object comes from the list. *)
Lemma lookup_fromPairs_elem_of {V} (pairs : list (string * V)) k v :
  fromPairs pairs !! k = Some v → (k, v) ∈ pairs.
Proof.
  induction pairs as [|[k' v'] pairs IH] using rev_ind.
  - change (fromPairs []) with (∅ : gmap string V). by rewrite lookup_empty.
  - rewrite fromPairs_snoc, lookup_insert_Some, elem_of_app, list_elem_of_singleton.
    intros [[-> ->]|[_ Hin]]; [by right | left; by apply IH].
Qed.

(** C5, as stated, fails on a table with a column whose field name is
    [clientMutationId]: the input type of [requests] has one field, not
    two, and it is not the column's. *)
Lemma C5_counterexample_clientMutationId_column :
  ¬ @oneFieldPerColumn Samples.collaborators Samples.requests.
Proof. intros (_ & _ & Hsize & _). vm_compute in Hsize. discriminate. Qed.

(** It fails as well when two columns share a field name: the later one
    replaces the earlier one. *)
Lemma oneFieldPerColumn_fails_on_shared_field_name :
  ¬ @oneFieldPerColumn Samples.collaborators
      {| Table.schema := Samples.public;
         Table.getIdentifier := "labels";
         Table.getTypeName := "Label";
         Table.getMarkdownTypeName := "`Label`";
         Table.getFieldName := "label";
         Table.getColumns :=
           [Samples.mkColumn "a_b" "aB" true; Samples.mkColumn "aB" "aB" false];
         Table.getPrimaryKeys := [] |}.
Proof. intros (_ & _ & Hsize & _). vm_compute in Hsize. discriminate. Qed.

(** C5, amended. For a table whose columns have pairwise distinct field
    names, none of them [clientMutationId], the input type has exactly one
    field per column and the optional [clientMutationId] field. *)
Theorem C5_input_type_fields `{Collaborators} (table : Table.t) :
  NoDup (map Column.getFieldName (Table.getColumns table)) →
  "clientMutationId" ∉ map Column.getFieldName (Table.getColumns table) →
  oneFieldPerColumn table.
Proof.
  intros Hnd Hcmi. unfold oneFieldPerColumn. cbn zeta. cbn [createInputType
    GraphQLInputObjectType.fields].
  set (pairs := map (λ column, (Column.getFieldName column, inputField column))
                    (Table.getColumns table)).
  assert (Hkeys : map fst pairs = map Column.getFieldName (Table.getColumns table))
    by (unfold pairs; by rewrite map_map).
  assert (Hnone : fromPairs pairs !! "clientMutationId" = None)
    by (apply lookup_fromPairs_None; by rewrite Hkeys).
  split; [|split; [|split]].
  - intros column Hcolumn.
    assert (Column.getFieldName column ∈ map Column.getFieldName (Table.getColumns table))
      by (apply list_elem_of_In, in_map, list_elem_of_In, Hcolumn).
    rewrite lookup_insert_ne by (intros Heq; apply Hcmi; by rewrite Heq).
    apply lookup_fromPairs_Some; [by rewrite Hkeys|].
    apply list_elem_of_In, in_map_iff. exists column.
    split; [|by apply list_elem_of_In]. unfold inputField, identity.
    by destruct (Column.hasDefault column).
  - exists inputClientMutationId. by rewrite lookup_insert_eq.
  - rewrite map_size_insert_None by done.
    rewrite size_fromPairs by (by rewrite Hkeys). unfold pairs. by rewrite length_map.
  - intros k [field Hk]. apply lookup_insert_Some in Hk as [[<- _]|[_ Hk]]; [by left|].
    right. apply lookup_fromPairs_elem_of, list_elem_of_In, in_map_iff in Hk
      as (column & [= <- _] & Hcolumn).
    exists column. split; [by apply list_elem_of_In | done].
Qed.

(** The input type of [users]: [id] (it has a default) is nullable, [name]
    and [email] are as declared, and there are four fields. *)
Lemma C5_input_type_fields_witness :
  GraphQLInputObjectType.fields (@createInputType Samples.collaborators Samples.users)
    !! "id"
  = Some {| InputField.type := Nullable (Named "Int"); InputField.description := None |}
  ∧ GraphQLInputObjectType.fields (@createInputType Samples.collaborators Samples.users)
      !! "name"
    = Some {| InputField.type := GraphQLNonNull (Named "String");
              InputField.description := None |}
  ∧ size (GraphQLInputObjectType.fields
            (@createInputType Samples.collaborators Samples.users)) = 4.
Proof.
  assert (Hnd : NoDup (map Column.getFieldName (Table.getColumns Samples.users)))
    by (apply (bool_decide_unpack _); vm_compute; reflexivity).
  assert (Hcmi : "clientMutationId"
                 ∉ map Column.getFieldName (Table.getColumns Samples.users))
    by (apply (bool_decide_unpack _); vm_compute; reflexivity).
  destruct (@C5_input_type_fields Samples.collaborators Samples.users Hnd Hcmi)
    as (Hfields & _ & Hsize & _).
  split; [|split; [|exact Hsize]].
  - apply (Hfields (Samples.mkColumn "id" "id" true)).
    apply list_elem_of_In. cbn. tauto.
  - apply (Hfields (Samples.mkColumn "name" "name" false)).
    apply list_elem_of_In. cbn. tauto.
Defined.

(** * Further properties of the resolvers and of the generated types *)

(** ** The edge resolver on a row and on [null] *)

(** The edge of a row that is in the store, for any [orderBy]. *)
Lemma resolveNewEdge_row table (σ : store) r o cmi args :
  σ !! r = Some o →
  resolveNewEdge table σ {| output := Some r; clientMutationId := cmi |} args
  = Ok {| cursor :=
            match orderBy args with
            | Some (String _ _ as k) => get (props o) k
            | _ => VArray (map (λ column, get (props o) (Column.name column))
                               (Table.getPrimaryKeys table))
            end;
          node := Some r |}.
Proof.
  intros Hr. destruct args as [[[|c k]|]].
  - rewrite resolveNewEdge_empty_orderBy.
    by rewrite (resolveNewEdge_row_primaryKeys table σ r o cmi Hr).
  - by rewrite (resolveNewEdge_row_orderBy table σ r o cmi (String c k) Hr).
  - by rewrite (resolveNewEdge_row_primaryKeys table σ r o cmi Hr).
Qed.

(** X1. On a null output the edge resolver returns in one case only: no
    selector (or the empty one) and a table without primary key, where the
    edge is an empty cursor over a null node. In every other case it throws
    the TypeError of reading a property of null. *)
Theorem X1_edge_of_null_output (table : Table.t) (σ : store) (cmi : value)
    (args : EdgeArgs) :
  resolveNewEdge table σ {| output := None; clientMutationId := cmi |} args
  = match orderBy args, Table.getPrimaryKeys table with
    | None, [] | Some EmptyString, [] => Ok {| cursor := VArray []; node := None |}
    | _, _ => Throw (TypeError "Cannot read property of null")
    end.
Proof.
  destruct args as [orderBy']. rewrite resolveNewEdge_null. cbn [orderBy].
  destruct orderBy' as [[|c k]|], (Table.getPrimaryKeys table); reflexivity.
Qed.

(** X2. The edge of a row depends on the row's own properties only: not on
    its [$$rowTable], not on the outcome's clientMutationId, not on any
    other object of the store. *)
Theorem X2_edge_reads_row_properties_only (table : Table.t) (σ σ' : store)
    (r : loc) (o o' : JSObject) (cmi cmi' : value) (args : EdgeArgs) :
  σ !! r = Some o →
  σ' !! r = Some o' →
  props o = props o' →
  resolveNewEdge table σ {| output := Some r; clientMutationId := cmi |} args
  = resolveNewEdge table σ' {| output := Some r; clientMutationId := cmi' |} args.
Proof.
  intros Hr Hr' Hprops.
  by rewrite (resolveNewEdge_row table σ r o cmi args Hr),
             (resolveNewEdge_row table σ' r o' cmi' args Hr'), Hprops.
Qed.

Lemma X2_edge_reads_row_properties_only_witness :
  resolveNewEdge Samples.users Samples.store5
    {| output := Some 1%positive; clientMutationId := VNull |} {| orderBy := None |}
  = resolveNewEdge Samples.users
      (<[2%positive := Samples.row7]> {[ 1%positive := MoreSamples.taggedRow ]})
      {| output := Some 1%positive; clientMutationId := VString "m1" |}
      {| orderBy := None |}.
Proof.
  apply (X2_edge_reads_row_properties_only Samples.users Samples.store5
           (<[2%positive := Samples.row7]> {[ 1%positive := MoreSamples.taggedRow ]})
           1%positive Samples.row5 MoreSamples.taggedRow);
    reflexivity.
Defined.

(** X3. On a row the edge resolver never throws. A selector that names no
    own property of the row gives as cursor what the row inherits from
    [Object.prototype] under that name, and [undefined] when it inherits
    nothing; without a selector the cursor is an array with one entry per
    primary-key column, read the same way where the row has no own property
    of that SQL name. *)
Theorem X3_edge_of_row_never_throws (table : Table.t) (σ : store) (r : loc)
    (o : JSObject) (cmi : value) :
  σ !! r = Some o →
  (∀ args, ∃ c,
     resolveNewEdge table σ {| output := Some r; clientMutationId := cmi |} args
     = Ok {| cursor := c; node := Some r |})
  ∧ (∀ k, k ≠ EmptyString → props o !! k = None →
       resolveNewEdge table σ {| output := Some r; clientMutationId := cmi |}
                      {| orderBy := Some k |}
       = Ok {| cursor := match objectPrototype k with
                         | Some inherited => inherited
                         | None => VUndefined
                         end;
               node := Some r |})
  ∧ (∃ vs,
       resolveNewEdge table σ {| output := Some r; clientMutationId := cmi |}
                      {| orderBy := None |}
       = Ok {| cursor := VArray vs; node := Some r |}
       ∧ length vs = length (Table.getPrimaryKeys table)
       ∧ (∀ i pk, Table.getPrimaryKeys table !! i = Some pk →
            props o !! Column.name pk = None →
            vs !! i = Some match objectPrototype (Column.name pk) with
                           | Some inherited => inherited
                           | None => VUndefined
                           end)).
Proof.
  intros Hr. split; [|split].
  - intros args. rewrite (resolveNewEdge_row table σ r o cmi args Hr). eauto.
  - intros k Hk Hmiss.
    rewrite (resolveNewEdge_row_orderBy table σ r o cmi k Hr Hk).
    unfold get. rewrite Hmiss. by destruct (objectPrototype k).
  - eexists. split; [by apply resolveNewEdge_row_primaryKeys|].
    split; [apply length_map|].
    intros i pk Hi Hmiss. change (map ?f ?l) with (f <$> l).
    rewrite list_lookup_fmap, Hi. cbn. unfold get. rewrite Hmiss.
    by destruct (objectPrototype (Column.name pk)).
Qed.

(** The row [{id: 6}] of [users]: ordered by [createdAt] the cursor is
    [undefined], ordered by [constructor] it is the function [Object]; for
    [people], whose key is [person_id], it is [[undefined]]. *)
Lemma X3_edge_of_row_never_throws_witness :
  resolveNewEdge Samples.users MoreSamples.store6
    {| output := Some 1%positive; clientMutationId := VNull |}
    {| orderBy := Some "createdAt" |}
  = Ok {| cursor := VUndefined; node := Some 1%positive |}
  ∧ resolveNewEdge Samples.users MoreSamples.store6
      {| output := Some 1%positive; clientMutationId := VNull |}
      {| orderBy := Some "constructor" |}
    = Ok {| cursor := VBuiltin "Object"; node := Some 1%positive |}
  ∧ ∃ vs,
      resolveNewEdge Samples.people MoreSamples.store6
        {| output := Some 1%positive; clientMutationId := VNull |}
        {| orderBy := None |}
      = Ok {| cursor := VArray vs; node := Some 1%positive |}
      ∧ vs !! 0 = Some VUndefined.
Proof.
  split; [|split].
  - apply (proj1 (proj2 (X3_edge_of_row_never_throws Samples.users
                           MoreSamples.store6 1%positive
                           MoreSamples.row6 VNull eq_refl)) "createdAt");
      [discriminate | reflexivity].
  - apply (proj1 (proj2 (X3_edge_of_row_never_throws Samples.users
                           MoreSamples.store6 1%positive
                           MoreSamples.row6 VNull eq_refl)) "constructor");
      [discriminate | reflexivity].
  - destruct (proj2 (proj2 (X3_edge_of_row_never_throws Samples.people
                              MoreSamples.store6 1%positive
                              MoreSamples.row6 VNull eq_refl)))
      as (vs & Hedge & _ & Hmiss).
    exists vs. split; [exact Hedge|].
    apply (Hmiss 0 (Samples.mkColumn "person_id" "personId" true)); reflexivity.
Defined.

(** ** The insert resolver, and the edge of what it returns *)

(** X4. After an insert that returned a row, the edge field resolves on the
    resolver's outcome and store without throwing; its node is the returned
    row and the edge is the one of the row as the client returned it: the
    [$$rowTable] tag set in between does not show in it. *)
Theorem X4_edge_after_insert (table : Table.t) (source : value) (args : Args)
    (context : Context) (σ σ1 : store) (res : QueryResult) (row : loc)
    (o : JSObject) (edgeArgs : EdgeArgs) :
  queryAsync (client context) (statementOf table (input args)) σ = Ok (res, σ1) →
  head (rows res) = Some row →
  σ1 !! row = Some o →
  ∃ outcome σ2 c,
    resolveInsert table source args context σ = Ok (outcome, σ2)
    ∧ resolveNewEdge table σ2 outcome edgeArgs
      = Ok {| cursor := c; node := Some row |}
    ∧ resolveNewEdge table σ1
        {| output := Some row; clientMutationId := VUndefined |} edgeArgs
      = Ok {| cursor := c; node := Some row |}.
Proof.
  intros Hq Hrow Ho. rewrite resolveInsert_unfold, Hq, Hrow.
  destruct (rows res) as [|row' rows']; [done|]. injection Hrow as ->.
  do 3 eexists. split; [reflexivity|].
  rewrite (resolveNewEdge_row table σ1 row o _ edgeArgs Ho).
  rewrite (resolveNewEdge_row table _ row (setRowTable table o) _ edgeArgs)
    by (by rewrite lookup_alter_eq, Ho).
  split; reflexivity.
Qed.

(** Scenario A followed by scenario C: [users] answers the insert with
    [{id: 5, createdAt: "2020-01-01"}] and the edge has the cursor [[5]]. *)
Lemma X4_edge_after_insert_witness :
  ∃ outcome σ2,
    resolveInsert Samples.users VNull {| input := Samples.alice |}
                  (Samples.context (Samples.returning Samples.row5)) ∅
    = Ok (outcome, σ2)
    ∧ resolveNewEdge Samples.users σ2 outcome {| orderBy := None |}
      = Ok {| cursor := VArray [num 5]; node := Some (fresh (dom (∅ : store))) |}.
Proof.
  destruct (X4_edge_after_insert Samples.users VNull {| input := Samples.alice |}
              (Samples.context (Samples.returning Samples.row5)) ∅
              _ _ (fresh (dom (∅ : store))) Samples.row5 {| orderBy := None |}
              eq_refl eq_refl (lookup_insert_eq _ _ _))
    as (outcome & σ2 & c & Hres & Hedge & Hbefore).
  exists outcome, σ2. split; [exact Hres|].
  rewrite Hedge. rewrite <- Hbefore. reflexivity.
Defined.

(** X5. After an insert that returned no row, the outcome's output is null,
    the store is the one the client left, and for a table with a primary key
    the edge field throws a TypeError whatever its arguments. *)
Theorem X5_edge_after_insert_without_row (table : Table.t) (source : value)
    (args : Args) (context : Context) (σ σ1 : store) (res : QueryResult) :
  queryAsync (client context) (statementOf table (input args)) σ = Ok (res, σ1) →
  rows res = [] →
  Table.getPrimaryKeys table ≠ [] →
  ∃ outcome,
    resolveInsert table source args context σ = Ok (outcome, σ1)
    ∧ output outcome = None
    ∧ ∀ edgeArgs,
        resolveNewEdge table σ1 outcome edgeArgs
        = Throw (TypeError "Cannot read property of null").
Proof.
  intros Hq Hrows Hpk. rewrite resolveInsert_unfold, Hq, Hrows.
  eexists. split; [reflexivity|]. split; [reflexivity|].
  intros [orderBy']. cbn [head]. rewrite resolveNewEdge_null.
  destruct (Table.getPrimaryKeys table); [done|].
  cbn. by rewrite orb_true_r.
Qed.

Lemma X5_edge_after_insert_without_row_witness :
  ∃ outcome,
    resolveInsert Samples.users VNull {| input := Samples.alice |}
                  (Samples.context Samples.returningNothing) Samples.store5
    = Ok (outcome, Samples.store5)
    ∧ output outcome = None
    ∧ resolveNewEdge Samples.users Samples.store5 outcome
        {| orderBy := Some "createdAt" |}
      = Throw (TypeError "Cannot read property of null").
Proof.
  destruct (X5_edge_after_insert_without_row Samples.users VNull
              {| input := Samples.alice |}
              (Samples.context Samples.returningNothing) Samples.store5
              Samples.store5 {| rows := [] |} eq_refl eq_refl)
    as (outcome & Hres & Hout & Hedge); [discriminate|].
  exists outcome. split; [exact Hres | split; [exact Hout | apply Hedge]].
Defined.

(** X6. The resolver's own step neither allocates nor frees: the store it
    returns has the references of the store the client left. When the
    returned row already carries this table as its [$$rowTable], or when no
    row is returned, the store is unchanged. *)
Theorem X6_store_footprint (table : Table.t) (source : value) (args : Args)
    (context : Context) (σ σ1 : store) (res : QueryResult) :
  queryAsync (client context) (statementOf table (input args)) σ = Ok (res, σ1) →
  ∃ outcome σ2,
    resolveInsert table source args context σ = Ok (outcome, σ2)
    ∧ dom σ2 = dom σ1
    ∧ (rows res = [] → σ2 = σ1)
    ∧ (∀ row o, head (rows res) = Some row → σ1 !! row = Some o →
         rowTable o = Some table → σ2 = σ1).
Proof.
  intros Hq. rewrite resolveInsert_unfold, Hq. do 2 eexists.
  split; [reflexivity|]. split; [|split].
  - destruct (rows res); [done | apply dom_alter_L].
  - by intros ->.
  - intros row o Hrow Ho Htag.
    destruct (rows res) as [|row' rows']; [done|]. injection Hrow as ->.
    apply map_eq. intros l. destruct (decide (l = row)) as [->|Hne].
    + rewrite lookup_alter_eq, Ho. cbn. f_equal.
      destruct o as [p t]. cbn in Htag. by subst t.
    + by rewrite lookup_alter_ne.
Qed.

(** A client that returns a row tagged with [users] already: the resolver
    leaves the client's store as it is. *)
Lemma X6_store_footprint_witness :
  ∃ outcome,
    resolveInsert Samples.users VNull {| input := Samples.alice |}
                  (Samples.context (Samples.returning MoreSamples.usersRow))
                  Samples.store7
    = Ok (outcome,
          <[fresh (dom Samples.store7) := MoreSamples.usersRow]> Samples.store7).
Proof.
  destruct (X6_store_footprint Samples.users VNull {| input := Samples.alice |}
              (Samples.context (Samples.returning MoreSamples.usersRow))
              Samples.store7 _ _ eq_refl)
    as (outcome & σ2 & Hres & _ & _ & Htagged).
  exists outcome. rewrite Hres. do 2 f_equal.
  apply (Htagged (fresh (dom Samples.store7)) MoreSamples.usersRow);
    [reflexivity | apply lookup_insert_eq | reflexivity].
Defined.

(** X7. Of the rows the client returns only the first is used: two answers
    with the same first row (or both without rows) and the same store give
    the same result and the same store, however many rows follow. *)
Theorem X7_only_first_row_is_used (table : Table.t) (source source' : value)
    (args : Args) (context context' : Context) (σ σ' σ1 : store)
    (res res' : QueryResult) :
  queryAsync (client context) (statementOf table (input args)) σ = Ok (res, σ1) →
  queryAsync (client context') (statementOf table (input args)) σ' = Ok (res', σ1) →
  head (rows res) = head (rows res') →
  resolveInsert table source args context σ
  = resolveInsert table source' args context' σ'.
Proof.
  intros Hq Hq' Hhead. rewrite !resolveInsert_unfold, Hq, Hq', Hhead.
  destruct (rows res) as [|row rows0], (rows res') as [|row' rows0'];
    cbn in Hhead; try done.
  by injection Hhead as ->.
Qed.

(** A client that returns the rows [{id: 5, ...}] and [{id: 6}], against one
    that returns the first of them only, in a store that holds both. *)
Lemma X7_only_first_row_is_used_witness :
  resolveInsert Samples.users VNull {| input := Samples.alice |}
    (Samples.context (MoreSamples.returningTwo Samples.row5 MoreSamples.row6)) ∅
  = resolveInsert Samples.users VNull {| input := Samples.alice |}
      (Samples.context
         {| queryAsync := λ _ σ,
              Ok ({| rows := [1%positive] |},
                  <[2%positive := MoreSamples.row6]> (<[1%positive := Samples.row5]> σ))
         |}) ∅.
Proof.
  apply (X7_only_first_row_is_used Samples.users VNull VNull
           {| input := Samples.alice |}
           (Samples.context (MoreSamples.returningTwo Samples.row5 MoreSamples.row6))
           _ ∅ ∅
           (<[2%positive := MoreSamples.row6]> (<[1%positive := Samples.row5]> ∅))
           {| rows := [1%positive; 2%positive] |} {| rows := [1%positive] |});
    reflexivity.
Defined.

(** ** What of the input reaches the statement *)

(** X8. Only the values under the columns' field names reach the statement:
    two inputs that agree under every column's field name give the same
    statement, whatever other keys they hold. *)
Theorem X8_statement_reads_column_fields_only (table : Table.t)
    (input input' : gmap string value) :
  (∀ column, column ∈ Table.getColumns table →
     get input (Column.getFieldName column) = get input' (Column.getFieldName column)) →
  statementOf table input = statementOf table input'.
Proof.
  intros Hagree. unfold statementOf, valueEntries. do 2 f_equal.
  apply map_ext_in. intros column Hcolumn.
  by rewrite (Hagree column) by (by apply list_elem_of_In).
Qed.

(** The input of scenario A with a key [role], which is no column of
    [users]. *)
Lemma X8_statement_reads_column_fields_only_witness :
  statementOf Samples.users Samples.alice
  = statementOf Samples.users MoreSamples.aliceWithRole.
Proof.
  apply X8_statement_reads_column_fields_only.
  intros column Hcolumn. apply list_elem_of_In in Hcolumn. cbn in Hcolumn.
  destruct Hcolumn as [<-|[<-|[<-|[]]]]; reflexivity.
Defined.

(** X9. When no column has a truthy value in the input (the empty input,
    say) the resolver still sends a statement: its column list and its
    value list are both [()] and it binds no parameter, so the text is
    [insert into <identifier> () values () returning *]; and only such an
    input gives that statement. *)
Theorem X9_statement_of_empty_input (table : Table.t) (input : gmap string value) :
  ((∀ column, column ∈ Table.getColumns table →
      truthy (get input (Column.getFieldName column)) = false)
   ↔ statementOf table input
     = [ ("insert into " +:+ Table.getIdentifier table, []);
         ("()", []); ("values", []); ("()", []); ("returning *", []) ])
  ∧ ((∀ column, column ∈ Table.getColumns table →
        truthy (get input (Column.getFieldName column)) = false) →
     SQLBuilder.text (statementOf table input)
     = "insert into " +:+ Table.getIdentifier table +:+ " () values () returning *").
Proof.
  assert (Hnone : presentColumns (Table.getColumns table) input = []
                  ↔ ∀ column, column ∈ Table.getColumns table →
                      truthy (get input (Column.getFieldName column)) = false).
  { split.
    - intros Hnil column Hcolumn.
      destruct (truthy (get input (Column.getFieldName column))) eqn:Ht; [|done].
      assert (Hin : In column (presentColumns (Table.getColumns table) input))
        by (apply elem_of_presentColumns; split; [by apply list_elem_of_In | done]).
      rewrite Hnil in Hin. destruct Hin.
    - intros Hfalsy.
      destruct (presentColumns (Table.getColumns table) input) as [|c l] eqn:Hl;
        [done|].
      assert (Hin : In c (presentColumns (Table.getColumns table) input))
        by (rewrite Hl; by left).
      apply elem_of_presentColumns in Hin as [Hin Ht].
      rewrite (Hfalsy c) in Ht by (by apply list_elem_of_In). done. }
  split.
  - rewrite <- Hnone, insertStatement_fragments.
    destruct (presentColumns (Table.getColumns table) input) as [|c l].
    + split; reflexivity.
    + split; [discriminate|]. intros Heq. by injection Heq.
  - intros Hfalsy. rewrite statement_text.
    apply Hnone in Hfalsy. by rewrite Hfalsy.
Qed.

Lemma X9_statement_of_empty_input_witness :
  SQLBuilder.text (statementOf Samples.users ∅)
  = "insert into users () values () returning *"
  ∧ SQLBuilder.values (statementOf Samples.users ∅) = [].
Proof.
  assert (Hfalsy : ∀ column, column ∈ Table.getColumns Samples.users →
            truthy (get (∅ : gmap string value) (Column.getFieldName column)) = false)
    by (intros column Hcolumn; apply list_elem_of_In in Hcolumn; cbn in Hcolumn;
        destruct Hcolumn as [<-|[<-|[<-|[]]]]; reflexivity).
  destruct (X9_statement_of_empty_input Samples.users ∅) as [Hfragments Htext].
  split; [exact (Htext Hfalsy)|].
  by rewrite (proj1 Hfragments Hfalsy).
Defined.

(** ** The fields of the payload type *)

Lemma length_append (s t : string) :
  String.length (s +:+ t) = String.length s + String.length t.
Proof. induction s as [|c s IH]; [reflexivity|]. rewrite append_cons. cbn. by rewrite IH. Qed.

(** The name of the edge field is not the name of the row field. *)
Lemma edge_name_ne (s : string) : s +:+ "Edge" ≠ s.
Proof. intros Heq. apply (f_equal String.length) in Heq. rewrite length_append in Heq. cbn in Heq. lia. Qed.

Section Payload.
Context `{Collaborators}.
Variable table : Table.t.

Lemma payload_row_field :
  getPayloadFields (Table.schema table) !! Table.getFieldName table = None →
  GraphQLObjectType.fields (createPayloadType table) !! Table.getFieldName table
  = Some {| Field.type := createTableType table;
            Field.args := ∅;
            Field.description :=
              "The inserted " +:+ Table.getMarkdownTypeName table +:+ ".";
            Field.resolve := RowResolver output |}.
Proof.
  intros Hfree. cbn [createPayloadType GraphQLObjectType.fields].
  rewrite lookup_union_r by done.
  rewrite lookup_insert_ne by apply edge_name_ne.
  by rewrite lookup_insert_eq.
Qed.

Lemma payload_edge_field :
  getPayloadFields (Table.schema table) !! (Table.getFieldName table +:+ "Edge") = None →
  GraphQLObjectType.fields (createPayloadType table)
    !! (Table.getFieldName table +:+ "Edge")
  = Some {| Field.type := createTableEdgeType table;
            Field.args := {["orderBy" := createTableOrderingEnum table]};
            Field.description :=
              "An edge to be inserted in a connection with help of the containing cursor.";
            Field.resolve := EdgeResolver (resolveNewEdge table) |}.
Proof.
  intros Hfree. cbn [createPayloadType GraphQLObjectType.fields].
  rewrite lookup_union_r by done. by rewrite lookup_insert_eq.
Qed.

End Payload.

(** X10. Every field the schema contributes to payloads is a field of the
    payload type, as contributed: where its name is the table's field name
    or the edge field's name, it is the schema's field that the type has,
    not the row or the edge field. *)
Theorem X10_schema_payload_fields_win `{Collaborators} (table : Table.t)
    (k : string) (field : Field.t) :
  getPayloadFields (Table.schema table) !! k = Some field →
  GraphQLObjectType.fields (createPayloadType table) !! k = Some field.
Proof.
  intros Hk. cbn [createPayloadType GraphQLObjectType.fields].
  by apply lookup_union_Some_l.
Qed.

(** A schema with a payload field [user]: the payload type of [users] has
    it under [user], and the inserted row is not reachable there. *)
Lemma X10_schema_payload_fields_win_witness :
  GraphQLObjectType.fields (@createPayloadType MoreSamples.shadowing Samples.users)
    !! "user"
  = Some (MoreSamples.schemaField "The current user.").
Proof.
  apply (@X10_schema_payload_fields_win MoreSamples.shadowing Samples.users).
  reflexivity.
Defined.

(** X11. When the schema contributes no field under the table's field name
    nor under the edge field's name, the payload type has the schema's
    fields and two more: the row field, of the table's type and without
    arguments, and the edge field, of the table's edge type, whose only
    argument is [orderBy], of the table's ordering enum. *)
Theorem X11_payload_type_fields `{Collaborators} (table : Table.t) :
  getPayloadFields (Table.schema table) !! Table.getFieldName table = None →
  getPayloadFields (Table.schema table) !! (Table.getFieldName table +:+ "Edge") = None →
  let fields := GraphQLObjectType.fields (createPayloadType table) in
  (∃ row,
     fields !! Table.getFieldName table = Some row
     ∧ Field.type row = createTableType table
     ∧ Field.args row = ∅)
  ∧ (∃ edge,
       fields !! (Table.getFieldName table +:+ "Edge") = Some edge
       ∧ Field.type edge = createTableEdgeType table
       ∧ Field.args edge = {["orderBy" := createTableOrderingEnum table]})
  ∧ size fields = size (getPayloadFields (Table.schema table)) + 2.
Proof.
  intros Hrow Hedge. cbn zeta. split; [|split].
  - eexists. split; [by apply payload_row_field|]. done.
  - eexists. split; [by apply payload_edge_field|]. done.
  - cbn [createPayloadType GraphQLObjectType.fields].
    rewrite map_size_disj_union.
    + rewrite map_size_insert_None.
      * rewrite map_size_insert_None by apply lookup_empty.
        rewrite map_size_empty. lia.
      * rewrite lookup_insert_ne by (intros Heq; by apply (edge_name_ne _ (eq_sym Heq))).
        apply lookup_empty.
    + apply map_disjoint_insert_r_2; [done|].
      apply map_disjoint_insert_r_2; [done|]. apply map_disjoint_empty_r.
Qed.

Lemma X11_payload_type_fields_witness :
  (∃ edge,
     GraphQLObjectType.fields (@createPayloadType Samples.collaborators Samples.users)
       !! "userEdge" = Some edge
     ∧ Field.type edge = Nullable (Named "UserEdge")
     ∧ Field.args edge = {["orderBy" := Nullable (Named "UserOrdering")]})
  ∧ size (GraphQLObjectType.fields
            (@createPayloadType Samples.collaborators Samples.users)) = 2.
Proof.
  destruct (@X11_payload_type_fields Samples.collaborators Samples.users
              eq_refl eq_refl) as (_ & Hedge & Hsize).
  split; [exact Hedge | exact Hsize].
Defined.

(** X12. The mutation field end to end. When the schema contributes no
    field under the table's field name nor under the edge field's name:
    running the field's resolver and then the resolver of its payload
    type's row field gives the first row the client returned, or null when
    it returned none; and the resolver of the payload type's edge field is
    the edge resolver of this table. *)
Theorem X12_mutation_field_end_to_end `{Collaborators} (table : Table.t)
    (source : value) (args : Args) (context : Context) (σ σ1 : store)
    (res : QueryResult) :
  getPayloadFields (Table.schema table) !! Table.getFieldName table = None →
  getPayloadFields (Table.schema table) !! (Table.getFieldName table +:+ "Edge") = None →
  queryAsync (client context) (statementOf table (input args)) σ = Ok (res, σ1) →
  let payload := GraphQLObjectType.fields
                   (MutationField.type (createInsertMutationField table)) in
  ∃ outcome σ2 row resolveRow edge,
    MutationField.resolve (createInsertMutationField table) source args context σ
    = Ok (outcome, σ2)
    ∧ payload !! Table.getFieldName table = Some row
    ∧ Field.resolve row = RowResolver resolveRow
    ∧ resolveRow outcome = head (rows res)
    ∧ payload !! (Table.getFieldName table +:+ "Edge") = Some edge
    ∧ Field.resolve edge = EdgeResolver (resolveNewEdge table).
Proof.
  intros Hrow Hedge Hq. cbn zeta.
  cbn [createInsertMutationField MutationField.resolve MutationField.type].
  rewrite resolveInsert_unfold, Hq.
  do 5 eexists. split; [reflexivity|].
  split; [by apply payload_row_field|]. split; [reflexivity|].
  split; [reflexivity|]. split; [by apply payload_edge_field | reflexivity].
Qed.

Lemma X12_mutation_field_end_to_end_witness :
  ∃ outcome σ2 row resolveRow,
    MutationField.resolve (@createInsertMutationField Samples.collaborators Samples.users)
      VNull {| input := Samples.alice |}
      (Samples.context (Samples.returning Samples.row5)) ∅
    = Ok (outcome, σ2)
    ∧ GraphQLObjectType.fields
        (MutationField.type (@createInsertMutationField Samples.collaborators Samples.users))
        !! "user" = Some row
    ∧ Field.resolve row = RowResolver resolveRow
    ∧ resolveRow outcome = Some (fresh (dom (∅ : store))).
Proof.
  destruct (@X12_mutation_field_end_to_end Samples.collaborators Samples.users
              VNull {| input := Samples.alice |}
              (Samples.context (Samples.returning Samples.row5)) ∅ _ _
              eq_refl eq_refl eq_refl)
    as (outcome & σ2 & row & resolveRow & _ & Hres & Hrow & Hresolve & Hhead & _).
  exists outcome, σ2, row, resolveRow.
  split; [exact Hres | split; [exact Hrow | split; [exact Hresolve | exact Hhead]]].
Defined.

(** ** The fields of the input type, for any table *)

(** The property an object built by [fromPairs] has under a key: the value
    of the last pair with that key. *)
Lemma lookup_fromPairs_map {A V} (key : A → string) (val : A → V) (l : list A) k :
  fromPairs (map (λ x, (key x, val x)) l) !! k
  = val <$> last (filter (λ x, key x = k) l).
Proof.
  induction l as [|x l IH] using rev_ind.
  - change (fromPairs (map _ [])) with (∅ : gmap string V). by rewrite lookup_empty.
  - rewrite map_app. cbn [map]. rewrite fromPairs_snoc, filter_app.
    destruct (decide (key x = k)) as [Hk|Hk].
    + rewrite Hk, lookup_insert_eq.
      rewrite (filter_cons_True (λ x, key x = k) x []) by done.
      by rewrite filter_nil, last_snoc.
    + rewrite lookup_insert_ne by done.
      rewrite (filter_cons_False (λ x, key x = k) x []) by done.
      by rewrite filter_nil, app_nil_r.
Qed.

Lemma size_fromPairs_le {V} (pairs : list (string * V)) :
  (size (fromPairs pairs) ≤ length pairs)%nat.
Proof.
  induction pairs as [|[k v] pairs IH] using rev_ind.
  - change (fromPairs []) with (∅ : gmap string V). by rewrite map_size_empty.
  - rewrite fromPairs_snoc, map_size_insert, length_app. cbn.
    destruct (fromPairs pairs !! k); cbn; lia.
Qed.

(** X13. For any table at all: the input type's [clientMutationId] field is
    the mutation id's, whatever the columns are called; under any other
    name the input type has the field of the last column, in table order,
    that goes by that field name, and no field when there is no such
    column; and it has at most one field more than the table has columns. *)
Theorem X13_input_type_last_column_wins `{Collaborators} (table : Table.t) :
  let fields := GraphQLInputObjectType.fields (createInputType table) in
  fields !! "clientMutationId" = Some inputClientMutationId
  ∧ (∀ k, k ≠ "clientMutationId" →
       fields !! k
       = inputField
           <$> last (filter (λ column, Column.getFieldName column = k)
                            (Table.getColumns table)))
  ∧ (size fields ≤ S (length (Table.getColumns table)))%nat.
Proof.
  cbn zeta. cbn [createInputType GraphQLInputObjectType.fields].
  split; [apply lookup_insert_eq | split].
  - intros k Hk. rewrite lookup_insert_ne by done.
    apply (lookup_fromPairs_map Column.getFieldName inputField).
  - rewrite map_size_insert.
    pose proof (size_fromPairs_le
                  (map (λ column, (Column.getFieldName column, inputField column))
                       (Table.getColumns table))) as Hle.
    rewrite length_map in Hle.
    destruct (fromPairs _ !! "clientMutationId"); cbn; lia.
Qed.

(** The table [labels], whose columns [a_b] (with a default) and [aB]
    (without) share the field name [aB]: the input field [aB] is the one of
    the second column, non-null. *)
Lemma X13_input_type_last_column_wins_witness :
  GraphQLInputObjectType.fields
    (@createInputType Samples.collaborators MoreSamples.labels) !! "aB"
  = Some {| InputField.type := GraphQLNonNull (Named "String");
            InputField.description := None |}
  ∧ GraphQLInputObjectType.fields
      (@createInputType Samples.collaborators MoreSamples.labels) !! "a_b" = None.
Proof.
  destruct (@X13_input_type_last_column_wins Samples.collaborators MoreSamples.labels)
    as (_ & Hlast & _).
  split.
  - rewrite (Hlast "aB") by discriminate. reflexivity.
  - rewrite (Hlast "a_b") by discriminate. reflexivity.
Defined.

(** X14. Which input fields are required. For a table whose columns have
    pairwise distinct field names, none of them [clientMutationId], the
    non-null fields of the input type are exactly the fields of the columns
    that have no default and a non-null type. *)
Theorem X14_required_input_fields `{Collaborators} (table : Table.t) (k : string) :
  NoDup (map Column.getFieldName (Table.getColumns table)) →
  "clientMutationId" ∉ map Column.getFieldName (Table.getColumns table) →
  (∃ field,
     GraphQLInputObjectType.fields (createInputType table) !! k = Some field
     ∧ isNullable (InputField.type field) = false)
  ↔ (∃ column,
       column ∈ Table.getColumns table
       ∧ Column.getFieldName column = k
       ∧ Column.hasDefault column = false
       ∧ isNullable (getColumnType column) = false).
Proof.
  intros Hnd Hcmi. cbn [createInputType GraphQLInputObjectType.fields].
  set (pairs := map (λ column, (Column.getFieldName column, inputField column))
                    (Table.getColumns table)).
  assert (Hkeys : map fst pairs = map Column.getFieldName (Table.getColumns table))
    by (unfold pairs; by rewrite map_map).
  split.
  - intros (field & Hk & Hreq).
    apply lookup_insert_Some in Hk as [[_ <-]|[_ Hk]]; [done|].
    apply lookup_fromPairs_elem_of, list_elem_of_In, in_map_iff in Hk
      as (column & [= <- <-] & Hcolumn).
    exists column. split; [by apply list_elem_of_In|]. split; [done|].
    unfold inputField in Hreq. cbn in Hreq.
    destruct (Column.hasDefault column); [|done].
    by rewrite getNullableType_nullable in Hreq.
  - intros (column & Hcolumn & <- & Hdefault & Hreq).
    exists (inputField column). split.
    + rewrite lookup_insert_ne.
      * apply lookup_fromPairs_Some; [by rewrite Hkeys|].
        apply list_elem_of_In, in_map_iff. exists column.
        split; [done | by apply list_elem_of_In].
      * intros Heq. apply Hcmi. rewrite Heq.
        by apply list_elem_of_In, in_map, list_elem_of_In.
    + unfold inputField. cbn. by rewrite Hdefault.
Qed.

(** In the input type of [users], [name] is required and [id], which has a
    default, is not. *)
Lemma X14_required_input_fields_witness :
  (∃ field,
     GraphQLInputObjectType.fields
       (@createInputType Samples.collaborators Samples.users) !! "name" = Some field
     ∧ isNullable (InputField.type field) = false)
  ∧ ¬ (∃ field,
         GraphQLInputObjectType.fields
           (@createInputType Samples.collaborators Samples.users) !! "id" = Some field
         ∧ isNullable (InputField.type field) = false).
Proof.
  assert (Hnd : NoDup (map Column.getFieldName (Table.getColumns Samples.users)))
    by (apply (bool_decide_unpack _); vm_compute; reflexivity).
  assert (Hcmi : "clientMutationId"
                 ∉ map Column.getFieldName (Table.getColumns Samples.users))
    by (apply (bool_decide_unpack _); vm_compute; reflexivity).
  split.
  - apply (@X14_required_input_fields Samples.collaborators Samples.users "name"
             Hnd Hcmi).
    exists (Samples.mkColumn "name" "name" false).
    split; [apply list_elem_of_In; cbn; tauto | done].
  - intros Hid.
    apply (@X14_required_input_fields Samples.collaborators Samples.users "id"
             Hnd Hcmi) in Hid as (column & Hcolumn & Hname & Hdefault & _).
    apply list_elem_of_In in Hcolumn. cbn in Hcolumn.
    destruct Hcolumn as [<-|[<-|[<-|[]]]]; discriminate.
Defined.
